(** * D1miniUdpMonitor: smoothing and telemetry encoding of the ESP8266 sketch

    The repository holds one sketch in two variants.  Both read a DHT11
    sensor, feed two exponential filters, and assemble one UDP datagram per
    cycle in the MegunoLink time-plot line protocol.  The first variant
    writes the protocol lines itself ([DirectWrite.loop]); the second goes
    through the [TimePlot] class ([TimePlotApi.loop]).

    The sensor driver, the Arduino [Print] conversions, [Filter.h] and
    [MegunoLink.h] are libraries the sketch includes; they are not part of
    the sources.  The sketch is therefore embedded over a [Platform]
    interface that lists exactly the operations the sketch calls. *)

From Stdlib Require Import ZArith QArith Qabs String Ascii List Bool Lia.
From Stdlib Require Import DecimalString DecimalPos DecimalN.
Import ListNotations.

Local Open Scope string_scope.

(* ================================================================== *)
(** ** Bytes and lines *)

(** The line terminator the sketch writes as ["\n"]. *)
Definition LF : ascii := "010"%char.
Definition NL : string := String LF EmptyString.

Fixpoint no_newline (s : string) : bool :=
  match s with
  | EmptyString => true
  | String c r => negb (Ascii.eqb c LF) && no_newline r
  end.

(** A payload made of the given lines, each followed by its terminator. *)
Fixpoint render_lines (ls : list string) : string :=
  match ls with
  | [] => EmptyString
  | l :: r => l ++ NL ++ render_lines r
  end.

(** Splitting a payload at the terminators: the terminated lines in order,
    and the bytes after the last terminator. *)
Fixpoint split_lines (s : string) : list string * string :=
  match s with
  | EmptyString => ([], EmptyString)
  | String c r =>
      let '(ls, tl) := split_lines r in
      if Ascii.eqb c LF then (EmptyString :: ls, tl)
      else match ls with
           | [] => ([], String c tl)
           | l :: ls' => (String c l :: ls', tl)
           end
  end.

(** The lines of a payload in which every line is terminated. *)
Definition lines_of (s : string) : option (list string) :=
  match split_lines s with
  | (ls, EmptyString) => Some ls
  | (_, String _ _) => None
  end.

(** Decimal text of a positive integer. *)
Definition decimal (w : positive) : string :=
  NilZero.string_of_uint (Pos.to_uint w).

(* ================================================================== *)
(** ** The platform the sketch runs on *)

(** What the sketch uses of its libraries: the [float] type with [isnan],
    the text [Print::print(float)] produces, and the
    [ExponentialFilter<float>] objects with their [Filter] and [Current]
    members. *)
Class Platform : Type := {
  float : Type;
  isnan : float -> bool;
  print : float -> string;
  ExponentialFilter : Type;
  Filter : ExponentialFilter -> float -> ExponentialFilter;
  Current : ExponentialFilter -> float
}.

(** Numbers are printed on one line. *)
Definition PrintOneLine (P : Platform) : Prop :=
  forall x : float, no_newline (print x) = true.

(** The sketch's global variables that change from cycle to cycle. *)
Record Globals {P : Platform} : Type := {
  temperatureFilter : ExponentialFilter;
  humidityFilter : ExponentialFilter;
  transmitCount : Z
}.

(** [transmitCount++] on a 32-bit [unsigned long]. *)
Definition ULONG_MODULUS : Z := 2 ^ 32.
Definition increment (n : Z) : Z := (n + 1) mod ULONG_MODULUS.

(** The packet under assembly: [udp.beginPacket] starts it empty,
    [udp.write] and [udp.print] append, [udp.endPacket] sends it. *)
Definition WiFiUDP : Type := string.
Definition beginPacket : WiFiUDP := EmptyString.
Definition write (udp : WiFiUDP) (s : string) : WiFiUDP := udp ++ s.
Definition print_float {P : Platform} (udp : WiFiUDP) (x : float) : WiFiUDP :=
  udp ++ print x.
Definition endPacket (udp : WiFiUDP) : string := udp.

(** The step both variants share: "Add values to filters if they are valid". *)
Definition add_to_filters {P : Platform}
    (temperature humidity : float) (g : Globals) : Globals :=
  if negb (isnan temperature) && negb (isnan humidity) then
    {| temperatureFilter := Filter (temperatureFilter g) temperature;
       humidityFilter := Filter (humidityFilter g) humidity;
       transmitCount := transmitCount g |}
  else g.

(** "Send and increment counter". *)
Definition count_transmission {P : Platform} (g : Globals) : Globals :=
  {| temperatureFilter := temperatureFilter g;
     humidityFilter := humidityFilter g;
     transmitCount := increment (transmitCount g) |}.

(* ================================================================== *)
(** ** First variant: the protocol lines written directly *)

Module DirectWrite.
Section Loop.
Context {P : Platform}.

  (** One run of [loop()], given the two sensor readings: the globals
      afterwards and the payload of the datagram sent.  The serial debug
      output and the final [delay] are not modelled. *)
Definition loop (temperature humidity : float) (g : Globals)
    : Globals * string :=
    let g := add_to_filters temperature humidity g in
    let udp := beginPacket in
    let udp :=
      if (transmitCount g mod 10 =? 0)%Z then
        let udp := write udp ("{TIMEPLOT|SET|title=Remote Temperature & Humidity}" ++ NL) in
        let udp := write udp ("{TIMEPLOT|SET|x-label=Time}" ++ NL) in
        let udp := write udp ("{TIMEPLOT|SET|y-label=Degrees C / % Relative Humidity}" ++ NL) in
        let udp := write udp ("{TIMEPLOT|STYLE|Raw Temperature:bs#}" ++ NL) in
        let udp := write udp ("{TIMEPLOT|STYLE|Raw Humidity:ro#}" ++ NL) in
        let udp := write udp ("{TIMEPLOT|STYLE|Filtered Temperature:bn_2}" ++ NL) in
        let udp := write udp ("{TIMEPLOT|STYLE|Filtered Humidity:rn_2}" ++ NL) in
        udp
      else udp in
    let udp := write udp "{TIMEPLOT|DATA|Raw Temperature|T|" in
    let udp := print_float udp temperature in
    let udp := write udp ("}" ++ NL) in
    let udp := write udp "{TIMEPLOT|DATA|Raw Humidity|T|" in
    let udp := print_float udp humidity in
    let udp := write udp ("}" ++ NL) in
    let udp := write udp "{TIMEPLOT|DATA|Filtered Temperature|T|" in
    let udp := print_float udp (Current (temperatureFilter g)) in
    let udp := write udp ("}" ++ NL) in
    let udp := write udp "{TIMEPLOT|DATA|Filtered Humidity|T|" in
    let udp := print_float udp (Current (humidityFilter g)) in
    let udp := write udp ("}" ++ NL) in
    let payload := endPacket udp in
    (count_transmission g, payload).
End Loop.
End DirectWrite.

(* ================================================================== *)
(** ** Second variant: the protocol lines rendered by [TimePlot] *)

(** Modelled from the spec: the [TimePlot] class of [MegunoLink.h] is
    missing from the sources.  Its methods render the wire format of the
    spec's encoder section: the three [SET] lines, the [STYLE] line
    [<seriesName>:<colorCode><lineCode><width><markerCode>] with the code
    table b=blue, r=red, k=black, g=green; s=solid, n=no line, d=dash;
    #=square, o=circle, n=no marker, and the [DATA] line.  The channel name
    handed to the constructor does not occur in that format. *)
Module TimePlot.
Inductive Colors : Type := Blue | Red | Black | Green.
Inductive LineStyle : Type := Solid | NoLine | Dashed.
Inductive MarkerStyle : Type := Square | Circle | NoMarker.

Definition colorCode (c : Colors) : ascii :=
    match c with
    | Blue => "b" | Red => "r" | Black => "k" | Green => "g"
    end%char.

Definition lineCode (l : LineStyle) : ascii :=
    match l with
    | Solid => "s" | NoLine => "n" | Dashed => "d"
    end%char.

Definition markerCode (m : MarkerStyle) : ascii :=
    match m with
    | Square => "#" | Circle => "o" | NoMarker => "n"
    end%char.

Record TimePlot : Type := { channelName : string }.

Definition SetTitle (Plot : TimePlot) (udp : WiFiUDP) (text : string) : WiFiUDP :=
    write udp ("{TIMEPLOT|SET|title=" ++ text ++ "}" ++ NL).

Definition SetXlabel (Plot : TimePlot) (udp : WiFiUDP) (text : string) : WiFiUDP :=
    write udp ("{TIMEPLOT|SET|x-label=" ++ text ++ "}" ++ NL).

Definition SetYlabel (Plot : TimePlot) (udp : WiFiUDP) (text : string) : WiFiUDP :=
    write udp ("{TIMEPLOT|SET|y-label=" ++ text ++ "}" ++ NL).

Definition styleCodes (c : Colors) (l : LineStyle) (w : positive) (m : MarkerStyle)
    : string :=
    String (colorCode c) (String (lineCode l) (decimal w ++ String (markerCode m) EmptyString)).

Definition SetSeriesProperties (Plot : TimePlot) (udp : WiFiUDP)
      (seriesName : string) (c : Colors) (l : LineStyle) (w : positive)
      (m : MarkerStyle) : WiFiUDP :=
    write udp ("{TIMEPLOT|STYLE|" ++ seriesName ++ ":" ++ styleCodes c l w m ++ "}" ++ NL).

Definition SendData {P : Platform} (Plot : TimePlot) (udp : WiFiUDP)
      (seriesName : string) (value : float) : WiFiUDP :=
    write udp ("{TIMEPLOT|DATA|" ++ seriesName ++ "|T|" ++ print value ++ "}" ++ NL).
End TimePlot.

Module TimePlotApi.
Section Loop.
Context {P : Platform}.
Import TimePlot.

  (** One run of the second variant's [loop()]. *)
Definition loop (temperature humidity : float) (g : Globals)
    : Globals * string :=
    let g := add_to_filters temperature humidity g in
    let udp := beginPacket in
    let Plot := {| channelName := "DHT" |} in
    let udp :=
      if (transmitCount g mod 10 =? 0)%Z then
        let udp := SetTitle Plot udp "Remote Temperature & Humidity" in
        let udp := SetXlabel Plot udp "Time" in
        let udp := SetYlabel Plot udp "Degrees C / % Relative Humidity" in
        let udp := SetSeriesProperties Plot udp "Raw Temperature" Blue NoLine 1 Square in
        let udp := SetSeriesProperties Plot udp "Raw Humidity" Red NoLine 1 Circle in
        let udp := SetSeriesProperties Plot udp "Filtered Temperature" Blue Solid 2 NoMarker in
        let udp := SetSeriesProperties Plot udp "Filtered Humidity" Red Solid 2 NoMarker in
        udp
      else udp in
    let udp := SendData Plot udp "Raw Temperature" temperature in
    let udp := SendData Plot udp "Raw Humidity" humidity in
    let udp := SendData Plot udp "Filtered Temperature" (Current (temperatureFilter g)) in
    let udp := SendData Plot udp "Filtered Humidity" (Current (humidityFilter g)) in
    let payload := endPacket udp in
    (count_transmission g, payload).
End Loop.
End TimePlotApi.

(* ================================================================== *)
(** ** The four series and the protocol lines *)

(** The series in the order both variants declare them, with the display
    properties the second variant passes to [SetSeriesProperties]. *)
Record Series : Type := {
  name : string;
  lineColor : TimePlot.Colors;
  lineStyle : TimePlot.LineStyle;
  lineWidth : positive;
  markerStyle : TimePlot.MarkerStyle
}.

Definition declared_series : list Series :=
  [ {| name := "Raw Temperature"; lineColor := TimePlot.Blue;
       lineStyle := TimePlot.NoLine; lineWidth := 1; markerStyle := TimePlot.Square |};
    {| name := "Raw Humidity"; lineColor := TimePlot.Red;
       lineStyle := TimePlot.NoLine; lineWidth := 1; markerStyle := TimePlot.Circle |};
    {| name := "Filtered Temperature"; lineColor := TimePlot.Blue;
       lineStyle := TimePlot.Solid; lineWidth := 2; markerStyle := TimePlot.NoMarker |};
    {| name := "Filtered Humidity"; lineColor := TimePlot.Red;
       lineStyle := TimePlot.Solid; lineWidth := 2; markerStyle := TimePlot.NoMarker |} ].

(** The kinds of protocol line, recognised on a line without its terminator. *)
Definition is_title_line (l : string) : bool := prefix "{TIMEPLOT|SET|title=" l.
Definition is_xlabel_line (l : string) : bool := prefix "{TIMEPLOT|SET|x-label=" l.
Definition is_ylabel_line (l : string) : bool := prefix "{TIMEPLOT|SET|y-label=" l.
Definition is_style_line_of (series l : string) : bool :=
  prefix ("{TIMEPLOT|STYLE|" ++ series ++ ":") l.
Definition is_data_line_of (series l : string) : bool :=
  prefix ("{TIMEPLOT|DATA|" ++ series ++ "|T|") l.

(** A metadata line is a [SET] or a [STYLE] line. *)
Definition is_metadata_line (l : string) : bool :=
  prefix "{TIMEPLOT|SET|" l || prefix "{TIMEPLOT|STYLE|" l.

(** Whether a payload carries metadata lines. *)
Definition has_metadata (payload : string) : bool :=
  existsb is_metadata_line (fst (split_lines payload)).

(** The data line of a series for a printed value. *)
Definition data_line {P : Platform} (series : string) (value : float) : string :=
  "{TIMEPLOT|DATA|" ++ series ++ "|T|" ++ print value ++ "}".

(** The style line the wire format of the spec prescribes, terminator
    included, for arbitrary one-character codes and a positive width. *)
Definition format_style_line (series : string) (colorCode lineCode : ascii)
    (width : positive) (markerCode : ascii) : string :=
  "{TIMEPLOT|STYLE|" ++ series ++ ":"
    ++ String colorCode
         (String lineCode (decimal width ++ String markerCode ("}" ++ NL))).

(** The codes the first variant's literals use for the properties the
    second variant declares: colour, then marker, then line, then the width
    unless it is 1.  Only the properties the sketch declares have a code
    here. *)
Definition literal_color (c : TimePlot.Colors) : option ascii :=
  match c with
  | TimePlot.Blue => Some "b" | TimePlot.Red => Some "r" | _ => None
  end%char.

Definition literal_marker (m : TimePlot.MarkerStyle) : option ascii :=
  match m with
  | TimePlot.Square => Some "s" | TimePlot.Circle => Some "o"
  | TimePlot.NoMarker => Some "n"
  end%char.

Definition literal_line (l : TimePlot.LineStyle) : option ascii :=
  match l with
  | TimePlot.NoLine => Some "#" | TimePlot.Solid => Some "_" | _ => None
  end%char.

Definition literal_width (w : positive) : string :=
  if (w =? 1)%positive then EmptyString else decimal w.

Definition literal_style_line (s : Series) : option string :=
  match literal_color (lineColor s), literal_marker (markerStyle s),
        literal_line (lineStyle s) with
  | Some c, Some m, Some l =>
      Some ("{TIMEPLOT|STYLE|" ++ name s ++ ":"
              ++ String c (String m (String l (literal_width (lineWidth s))))
              ++ "}")
  | _, _, _ => None
  end.

(* ================================================================== *)
(** ** The frames of a cycle, line by line *)

Section Frames.
Context {P : Platform}.

(** The metadata block of the first variant, without terminators. *)
Definition set_lines : list string :=
  [ "{TIMEPLOT|SET|title=Remote Temperature & Humidity}";
    "{TIMEPLOT|SET|x-label=Time}";
    "{TIMEPLOT|SET|y-label=Degrees C / % Relative Humidity}" ].

Definition direct_style_lines : list string :=
  [ "{TIMEPLOT|STYLE|Raw Temperature:bs#}";
    "{TIMEPLOT|STYLE|Raw Humidity:ro#}";
    "{TIMEPLOT|STYLE|Filtered Temperature:bn_2}";
    "{TIMEPLOT|STYLE|Filtered Humidity:rn_2}" ].

(** The four data lines of a cycle: the raw readings, then the filters'
    current values. *)
Definition data_lines (temperature humidity : float) (g : Globals) : list string :=
  [ data_line "Raw Temperature" temperature;
    data_line "Raw Humidity" humidity;
    data_line "Filtered Temperature" (Current (temperatureFilter g));
    data_line "Filtered Humidity" (Current (humidityFilter g)) ].

(** The lines of the frame the first variant builds: the metadata block
    when the counter the cycle tests is a multiple of 10, then the data
    lines, which read the filters as the cycle's filter step leaves them. *)
Definition direct_lines (temperature humidity : float) (g : Globals) : list string :=
  (if (transmitCount g mod 10 =? 0)%Z then set_lines ++ direct_style_lines else [])
    ++ data_lines temperature humidity (add_to_filters temperature humidity g).

(** The outer Arduino runtime calls [loop()] again and again: the payloads
    of successive cycles, one pair of readings per cycle. *)
Fixpoint frames (readings : list (float * float)) (g : Globals) : list string :=
  match readings with
  | [] => []
  | (temperature, humidity) :: rest =>
      let '(g', payload) := DirectWrite.loop temperature humidity g in
      payload :: frames rest g'
  end.

(** Which of [n] successive cycles test a counter that is a multiple of
    10, for a counter that starts at [c]. *)
Fixpoint cadence (n : nat) (c : Z) : list bool :=
  match n with
  | O => []
  | S n' => (c mod 10 =? 0)%Z :: cadence n' (increment c)
  end.

(** The two measured quantities, each with its reading, its filter and the
    series that carries its filtered value. *)
Inductive Quantity : Type := Temperature | Humidity.

Definition reading_of (q : Quantity) (temperature humidity : float) : float :=
  match q with Temperature => temperature | Humidity => humidity end.

Definition filter_of (q : Quantity) (g : Globals) : ExponentialFilter :=
  match q with
  | Temperature => temperatureFilter g
  | Humidity => humidityFilter g
  end.

Definition filtered_series (q : Quantity) : string :=
  match q with
  | Temperature => "Filtered Temperature"
  | Humidity => "Filtered Humidity"
  end.

(** The globals after successive cycles. *)
Fixpoint run_cycles (readings : list (float * float)) (g : Globals) : Globals :=
  match readings with
  | [] => g
  | (temperature, humidity) :: rest =>
      run_cycles rest (fst (DirectWrite.loop temperature humidity g))
  end.

(** A cycle in which the guard of the filter step fails: one of the two
    readings is NaN. *)
Definition invalid_cycle (r : float * float) : bool :=
  isnan (fst r) || isnan (snd r).

(** The globals after successive cycles of the second variant. *)
Fixpoint run_cycles_timeplot (readings : list (float * float)) (g : Globals)
  : Globals :=
  match readings with
  | [] => g
  | (temperature, humidity) :: rest =>
      run_cycles_timeplot rest (fst (TimePlotApi.loop temperature humidity g))
  end.

(** The readings of the cycles in which the guard of the filter step
    holds, in order. *)
Definition valid_cycles (readings : list (float * float)) : list (float * float) :=
  filter (fun r => negb (invalid_cycle r)) readings.

(** The bytes the seven metadata writes add to a packet. *)
Definition metadata_block : string :=
  render_lines (set_lines ++ direct_style_lines).

End Frames.

(** The shape of a frame that carries metadata for the four series: title,
    x label, y label, one style line per series and one data line per
    series, the series in declaration order. *)
Definition metadata_frame_shape (ls : list string) : bool :=
  match ls with
  | [t; x; y; s1; s2; s3; s4; d1; d2; d3; d4] =>
      is_title_line t && is_xlabel_line x && is_ylabel_line y
      && is_style_line_of "Raw Temperature" s1
      && is_style_line_of "Raw Humidity" s2
      && is_style_line_of "Filtered Temperature" s3
      && is_style_line_of "Filtered Humidity" s4
      && is_data_line_of "Raw Temperature" d1
      && is_data_line_of "Raw Humidity" d2
      && is_data_line_of "Filtered Temperature" d3
      && is_data_line_of "Filtered Humidity" d4
  | _ => false
  end.

(* ================================================================== *)
(** ** The smoothing filter *)

(** Modelled from the spec: [Filter.h], which declares
    [ExponentialFilter], is missing from the sources.  The filter holds a
    weight and the last smoothed value; [apply] computes
    [current = weight*sample + (1-weight)*current] and returns the new
    [current]; [value] reads [current].  Samples are finite reals, taken
    here as rationals. *)
Module SmoothingFilter.

Record t : Type := { weight : Q; current : Q }.

Definition apply (f : t) (sample : Q) : t * Q :=
  let c := weight f * sample + (1 - weight f) * current f in
  ({| weight := weight f; current := c |}, c).

Definition value (f : t) : Q := current f.

(** The filter after a sequence of samples, oldest first. *)
Definition apply_all (f : t) (samples : list Q) : t :=
  fold_left (fun f s => fst (apply f s)) samples f.

(** The weights the spec admits: 0 < w <= 1. *)
Definition in_range (w : Q) : bool := negb (Qle_bool w 0) && Qle_bool w 1.

(** Modelled from the spec: the constructor of [Filter.h] is missing from
    the sources.  [new(weight, seed)] fails if the weight is outside
    (0,1]; otherwise it yields the filter with that weight and with
    [current] initialised to the seed. *)
Definition new (weight seed : Q) : option t :=
  if in_range weight then Some {| weight := weight; current := seed |}
  else None.

End SmoothingFilter.

(** Powers of a rational. *)
Fixpoint qpow (x : Q) (n : nat) : Q :=
  match n with
  | O => 1
  | S n' => x * qpow x n'
  end.

(** [w*s_n + (1-w)*w*s_(n-1) + ...], for the samples newest first; the
    sample at position [k] from the newest has the factor [(1-w)^k]. *)
Fixpoint weighted_sum (w : Q) (newest_first : list Q) (k : nat) : Q :=
  match newest_first with
  | [] => 0
  | s :: older => qpow (1 - w) k * w * s + weighted_sum w older (S k)
  end.

(** The closed form after the samples [s_1 .. s_n] on the seed [v0]. *)
Definition closed_form (w v0 : Q) (samples : list Q) : Q :=
  weighted_sum w (rev samples) 0 + qpow (1 - w) (length samples) * v0.

(* ================================================================== *)
(** ** A platform to run the sketch on *)

(** A sensor reading: NaN when the read failed, a finite value otherwise. *)
Inductive reading : Type := NaN | Val (q : Q).

Definition reading_isnan (x : reading) : bool :=
  match x with NaN => true | Val _ => false end.

Definition digits (n : Z) : string := NilZero.string_of_uint (N.to_uint (Z.to_N n)).

(** Modelled from the spec: the number text is the platform's default
    conversion, which the sources do not contain; this platform prints
    fixed point with two decimals, rounding half away from zero, and
    [nan] for NaN. *)
Definition print_reading (x : reading) : string :=
  match x with
  | NaN => "nan"
  | Val q =>
      let a := Qabs q in
      let hundredths := ((2 * 100 * Qnum a + Zpos (Qden a)) / (2 * Zpos (Qden a)))%Z in
      (if Qlt_le_dec q 0 then "-" else EmptyString)
        ++ digits (hundredths / 100) ++ "."
        ++ digits (hundredths mod 100 / 10) ++ digits (hundredths mod 10)
  end.

(** The filter of the spec as the sketch's [ExponentialFilter<float>].
    [apply] is specified on finite samples only and [loop] passes it no
    other; on NaN this platform leaves the filter as it is. *)
Definition model_platform : Platform :=
  {| float := reading;
     isnan := reading_isnan;
     print := print_reading;
     ExponentialFilter := SmoothingFilter.t;
     Filter := fun f x =>
       match x with
       | Val s => fst (SmoothingFilter.apply f s)
       | NaN => f
       end;
     Current := fun f => Val (SmoothingFilter.value f) |}.

(** A state of the sketch with filters of weight 1/10. *)
Definition sample_globals (count : Z) : @Globals model_platform :=
  @Build_Globals model_platform
    {| SmoothingFilter.weight := 1 # 10; SmoothingFilter.current := 25 |}
    {| SmoothingFilter.weight := 1 # 10; SmoothingFilter.current := 50 |}
    count.

(* ================================================================== *)
(** ** Strings and lines: basic facts *)

Lemma append_assoc (a b c : string) : (a ++ b) ++ c = a ++ (b ++ c).
Proof.
  induction a as [|x a IH]; simpl; [reflexivity | now rewrite IH].
Qed.

Lemma no_newline_app (a b : string) :
  no_newline (a ++ b) = no_newline a && no_newline b.
Proof.
  induction a as [|x a IH]; simpl; [reflexivity|].
  now rewrite IH, andb_assoc.
Qed.

Lemma prefix_nil (s : string) : prefix EmptyString s = true.
Proof. now destruct s. Qed.

Lemma prefix_app (a b : string) : prefix a (a ++ b) = true.
Proof.
  induction a as [|x a IH]; simpl.
  - apply prefix_nil.
  - destruct (ascii_dec x x) as [_|N]; [exact IH | now elim N].
Qed.

Lemma split_lines_no_newline (l r : string) :
  no_newline l = true ->
  split_lines (l ++ String LF r)
  = (l :: fst (split_lines r), snd (split_lines r)).
Proof.
  induction l as [|x l IH]; intros Hl.
  - simpl. now destruct (split_lines r).
  - simpl in Hl. apply andb_true_iff in Hl as [Hx Hl].
    apply negb_true_iff in Hx.
    cbn [append split_lines]. rewrite (IH Hl), Hx. reflexivity.
Qed.

Lemma split_lines_render (ls : list string) :
  forallb no_newline ls = true ->
  split_lines (render_lines ls) = (ls, EmptyString).
Proof.
  induction ls as [|l ls IH]; intros H; [reflexivity|].
  simpl in H. apply andb_true_iff in H as [Hl Hls].
  cbn [render_lines NL append].
  rewrite (split_lines_no_newline l _ Hl), (IH Hls). reflexivity.
Qed.

Lemma lines_of_render (ls : list string) :
  forallb no_newline ls = true ->
  lines_of (render_lines ls) = Some ls.
Proof.
  intros H. unfold lines_of. now rewrite (split_lines_render ls H).
Qed.

(** Both sides of a string equation brought to one shape: the appends
    nested to the right and the literals spelled out. *)
Ltac normalize_strings :=
  repeat first [rewrite append_assoc | progress cbn [append]].

(* ================================================================== *)
(** ** The frames of a cycle *)

Section FrameFacts.
Context {P : Platform}.

Lemma direct_loop_state (t h : float) (g : Globals) :
  fst (DirectWrite.loop t h g) = count_transmission (add_to_filters t h g).
Proof. reflexivity. Qed.

Lemma add_to_filters_count (t h : float) (g : Globals) :
  transmitCount (add_to_filters t h g) = transmitCount g.
Proof.
  unfold add_to_filters.
  now destruct (negb (isnan t) && negb (isnan h)).
Qed.

Lemma direct_loop_payload (t h : float) (g : Globals) :
  snd (DirectWrite.loop t h g) = render_lines (direct_lines t h g).
Proof.
  unfold DirectWrite.loop, direct_lines.
  cbn [snd]. rewrite add_to_filters_count.
  unfold endPacket, write, print_float, beginPacket, data_lines, data_line,
    set_lines, direct_style_lines, NL.
  destruct (transmitCount g mod 10 =? 0)%Z;
    cbn [render_lines List.app]; unfold NL; normalize_strings; reflexivity.
Qed.

End FrameFacts.

(* ================================================================== *)
(** ** Frames on a platform that prints numbers on one line *)

Section OneLine.
Context {P : Platform}.
Hypothesis one_line : PrintOneLine P.

Lemma data_line_no_newline (series : string) (v : float) :
  no_newline series = true -> no_newline (data_line series v) = true.
Proof.
  intros Hs. unfold data_line.
  rewrite !no_newline_app, Hs, (one_line v). reflexivity.
Qed.

Lemma data_lines_no_newline (t h : float) (g : Globals) :
  forallb no_newline (data_lines t h g) = true.
Proof.
  unfold data_lines. cbn [forallb].
  rewrite !data_line_no_newline; reflexivity.
Qed.

Lemma direct_lines_no_newline (t h : float) (g : Globals) :
  forallb no_newline (direct_lines t h g) = true.
Proof.
  unfold direct_lines. rewrite forallb_app, data_lines_no_newline.
  now destruct (transmitCount g mod 10 =? 0)%Z.
Qed.

Lemma direct_loop_lines (t h : float) (g : Globals) :
  lines_of (snd (DirectWrite.loop t h g)) = Some (direct_lines t h g).
Proof.
  rewrite direct_loop_payload.
  apply lines_of_render, direct_lines_no_newline.
Qed.

Lemma data_line_not_metadata (series : string) (v : float) :
  is_metadata_line (data_line series v) = false.
Proof. reflexivity. Qed.

Lemma direct_has_metadata (t h : float) (g : Globals) :
  has_metadata (snd (DirectWrite.loop t h g)) = (transmitCount g mod 10 =? 0)%Z.
Proof.
  unfold has_metadata.
  rewrite direct_loop_payload,
    (split_lines_render _ (direct_lines_no_newline t h g)).
  cbn [fst]. unfold direct_lines. rewrite existsb_app.
  unfold data_lines. cbn [existsb]. rewrite !data_line_not_metadata.
  now destruct (transmitCount g mod 10 =? 0)%Z.
Qed.

Lemma frames_cadence (readings : list (float * float)) (g : Globals) :
  map has_metadata (frames readings g)
  = cadence (length readings) (transmitCount g).
Proof.
  revert g. induction readings as [|[t h] rest IH]; intros g; [reflexivity|].
  cbn [frames].
  rewrite (surjective_pairing (DirectWrite.loop t h g)).
  cbn [map length cadence].
  rewrite direct_has_metadata, IH, direct_loop_state.
  cbn [count_transmission transmitCount].
  now rewrite add_to_filters_count.
Qed.

End OneLine.

(* ================================================================== *)
(** ** The model platform prints on one line *)

Lemma string_of_uint_no_newline (d : Decimal.uint) :
  no_newline (NilEmpty.string_of_uint d) = true.
Proof. induction d; simpl; auto. Qed.

Lemma digits_no_newline (n : Z) : no_newline (digits n) = true.
Proof.
  unfold digits, NilZero.string_of_uint.
  destruct (N.to_uint (Z.to_N n)); try reflexivity;
    apply (string_of_uint_no_newline (_ _)).
Qed.

Lemma decimal_nonempty (w : positive) : decimal w <> EmptyString.
Proof.
  unfold decimal, NilZero.string_of_uint.
  destruct (Pos.to_uint w); simpl; discriminate.
Qed.

Lemma model_one_line : PrintOneLine model_platform.
Proof.
  intros [|q]; [reflexivity|].
  cbn [print model_platform print_reading].
  rewrite !no_newline_app, !digits_no_newline.
  now destruct (Qlt_le_dec q 0).
Qed.

(* ================================================================== *)
(** ** The smoothing filter: recurrence and closed form *)

Lemma apply_all_weight (f : SmoothingFilter.t) (samples : list Q) :
  SmoothingFilter.weight (SmoothingFilter.apply_all f samples)
  = SmoothingFilter.weight f.
Proof.
  revert f. induction samples as [|s rest IH]; intros f; [reflexivity|].
  unfold SmoothingFilter.apply_all in *. cbn [fold_left].
  now rewrite IH.
Qed.

Lemma apply_all_snoc (f : SmoothingFilter.t) (samples : list Q) (s : Q) :
  SmoothingFilter.apply_all f (samples ++ [s])
  = fst (SmoothingFilter.apply (SmoothingFilter.apply_all f samples) s).
Proof.
  unfold SmoothingFilter.apply_all. now rewrite fold_left_app.
Qed.

Lemma weighted_sum_shift (w : Q) (l : list Q) (k : nat) :
  weighted_sum w l (S k) == (1 - w) * weighted_sum w l k.
Proof.
  revert k. induction l as [|s l IH]; intros k; cbn [weighted_sum].
  - ring.
  - rewrite (IH (S k)). cbn [qpow]. ring.
Qed.

Lemma apply_all_closed_form (w v0 : Q) (samples : list Q) :
  SmoothingFilter.value
    (SmoothingFilter.apply_all
       {| SmoothingFilter.weight := w; SmoothingFilter.current := v0 |} samples)
  == closed_form w v0 samples.
Proof.
  induction samples as [|s samples IH] using rev_ind.
  - unfold closed_form. cbn. ring.
  - rewrite apply_all_snoc.
    unfold SmoothingFilter.value, SmoothingFilter.apply in *.
    cbn [fst SmoothingFilter.current]. rewrite apply_all_weight.
    cbn [SmoothingFilter.weight]. rewrite IH.
    unfold closed_form. rewrite rev_app_distr, length_app.
    cbn [rev List.app weighted_sum length]. rewrite Nat.add_1_r.
    rewrite weighted_sum_shift. cbn [qpow]. ring.
Qed.

(** C1.  For a weight [w] with [0 < w <= 1], every [apply] sets [current]
    to [w*s + (1-w)*current] and returns that new value, and after the
    samples [s_1 .. s_n] on the seed [v0] the filter reads
    [w*s_n + (1-w)*w*s_(n-1) + ... + (1-w)^n * v0]. *)
Theorem apply_is_linear_recurrence (w v0 : Q) (samples : list Q) :
  0 < w /\ w <= 1 ->
  (forall c s : Q,
      SmoothingFilter.apply
        {| SmoothingFilter.weight := w; SmoothingFilter.current := c |} s
      = ({| SmoothingFilter.weight := w;
            SmoothingFilter.current := w * s + (1 - w) * c |},
         w * s + (1 - w) * c))
  /\ SmoothingFilter.value
       (SmoothingFilter.apply_all
          {| SmoothingFilter.weight := w; SmoothingFilter.current := v0 |}
          samples)
     == closed_form w v0 samples.
Proof.
  intros _. split.
  - intros c s. reflexivity.
  - apply apply_all_closed_form.
Qed.

Lemma apply_is_linear_recurrence_three_samples :
  (0 < 1 # 10 /\ 1 # 10 <= 1)
  /\ SmoothingFilter.value
       (SmoothingFilter.apply_all
          {| SmoothingFilter.weight := 1 # 10; SmoothingFilter.current := 25 |}
          [30; 20; 28])
     == closed_form (1 # 10) 25 [30; 20; 28].
Proof.
  assert (Hw : 0 < 1 # 10 /\ 1 # 10 <= 1) by (split; [reflexivity | discriminate]).
  split; [exact Hw|].
  exact (proj2 (apply_is_linear_recurrence (1 # 10) 25 [30; 20; 28] Hw)).
Defined.

(** The closed form written out for three samples. *)
Example closed_form_three_samples :
  closed_form (1 # 10) 25 [30; 20; 28]
  == (1 # 10) * 28 + (9 # 10) * (1 # 10) * 20
     + (9 # 10) * (9 # 10) * (1 # 10) * 30
     + (9 # 10) * (9 # 10) * (9 # 10) * 25.
Proof. reflexivity. Qed.

(* ================================================================== *)
(** ** The frame of a metadata cycle *)

Lemma is_data_line_of_data_line {P : Platform} (series : string) (v : float) :
  is_data_line_of series (data_line series v) = true.
Proof.
  unfold is_data_line_of.
  replace (data_line series v)
    with (("{TIMEPLOT|DATA|" ++ series ++ "|T|") ++ print v ++ "}")
    by (unfold data_line; normalize_strings; reflexivity).
  apply prefix_app.
Qed.

Lemma metadata_lines_shape {P : Platform} (t h : float) (g : Globals) :
  metadata_frame_shape (set_lines ++ direct_style_lines ++ data_lines t h g)%list = true.
Proof.
  unfold data_lines.
  cbn [set_lines direct_style_lines List.app metadata_frame_shape].
  rewrite !is_data_line_of_data_line. reflexivity.
Qed.

Lemma direct_lines_metadata {P : Platform} (t h : float) (g : Globals) :
  (transmitCount g mod 10 = 0)%Z ->
  direct_lines t h g
  = (set_lines ++ direct_style_lines ++ data_lines t h (add_to_filters t h g))%list.
Proof.
  intros H. unfold direct_lines.
  apply Z.eqb_eq in H. rewrite H. now rewrite <- app_assoc.
Qed.

(** C2.  When the cycle renders metadata, the frame consists of
    newline-terminated lines in this order: the title line, the x-label
    line, the y-label line, one style line per series in declaration
    order, then one data line per series, each exactly as the wire format
    has it; no line contains a newline. *)
Theorem metadata_frame_lines_in_order {P : Platform} (one_line : PrintOneLine P)
    (t h : float) (g : Globals) :
  (transmitCount g mod 10 = 0)%Z ->
  exists ls : list string,
    snd (DirectWrite.loop t h g) = render_lines ls
    /\ lines_of (snd (DirectWrite.loop t h g)) = Some ls
    /\ ls = [ "{TIMEPLOT|SET|title=Remote Temperature & Humidity}";
              "{TIMEPLOT|SET|x-label=Time}";
              "{TIMEPLOT|SET|y-label=Degrees C / % Relative Humidity}";
              "{TIMEPLOT|STYLE|Raw Temperature:bs#}";
              "{TIMEPLOT|STYLE|Raw Humidity:ro#}";
              "{TIMEPLOT|STYLE|Filtered Temperature:bn_2}";
              "{TIMEPLOT|STYLE|Filtered Humidity:rn_2}";
              "{TIMEPLOT|DATA|Raw Temperature|T|" ++ print t ++ "}";
              "{TIMEPLOT|DATA|Raw Humidity|T|" ++ print h ++ "}";
              "{TIMEPLOT|DATA|Filtered Temperature|T|"
                ++ print (Current (temperatureFilter (fst (DirectWrite.loop t h g))))
                ++ "}";
              "{TIMEPLOT|DATA|Filtered Humidity|T|"
                ++ print (Current (humidityFilter (fst (DirectWrite.loop t h g))))
                ++ "}" ]
    /\ metadata_frame_shape ls = true
    /\ forallb no_newline ls = true.
Proof.
  intros H. exists (direct_lines t h g).
  split; [apply direct_loop_payload|].
  split; [apply (direct_loop_lines one_line)|].
  split; [rewrite (direct_lines_metadata t h g H); reflexivity|].
  split; [|apply (direct_lines_no_newline one_line)].
  rewrite (direct_lines_metadata t h g H). apply metadata_lines_shape.
Qed.

Lemma metadata_frame_lines_in_order_at_start :
  exists ls : list string,
    snd (@DirectWrite.loop model_platform (Val 30) (Val 40) (sample_globals 0))
    = render_lines ls
    /\ lines_of
         (snd (@DirectWrite.loop model_platform (Val 30) (Val 40) (sample_globals 0)))
       = Some ls
    /\ ls = [ "{TIMEPLOT|SET|title=Remote Temperature & Humidity}";
              "{TIMEPLOT|SET|x-label=Time}";
              "{TIMEPLOT|SET|y-label=Degrees C / % Relative Humidity}";
              "{TIMEPLOT|STYLE|Raw Temperature:bs#}";
              "{TIMEPLOT|STYLE|Raw Humidity:ro#}";
              "{TIMEPLOT|STYLE|Filtered Temperature:bn_2}";
              "{TIMEPLOT|STYLE|Filtered Humidity:rn_2}";
              "{TIMEPLOT|DATA|Raw Temperature|T|30.00}";
              "{TIMEPLOT|DATA|Raw Humidity|T|40.00}";
              "{TIMEPLOT|DATA|Filtered Temperature|T|25.50}";
              "{TIMEPLOT|DATA|Filtered Humidity|T|49.00}" ]
    /\ metadata_frame_shape ls = true
    /\ forallb no_newline ls = true.
Proof.
  apply (@metadata_frame_lines_in_order model_platform model_one_line
           (Val 30) (Val 40) (sample_globals 0)).
  reflexivity.
Defined.

(** C3.  With the counter starting at 0, of 20 consecutive cycles exactly
    the cycles 0 and 10 send a frame with metadata lines. *)
Theorem metadata_in_cycles_0_and_10 {P : Platform} (one_line : PrintOneLine P)
    (readings : list (float * float)) (g : Globals) :
  length readings = 20%nat ->
  transmitCount g = 0%Z ->
  map has_metadata (frames readings g)
  = [ true; false; false; false; false; false; false; false; false; false;
      true; false; false; false; false; false; false; false; false; false ].
Proof.
  intros Hn Hc.
  rewrite (frames_cadence one_line), Hn, Hc. reflexivity.
Qed.

Lemma metadata_in_cycles_0_and_10_sample_run :
  map has_metadata
    (@frames model_platform (repeat (Val 30, NaN) 20) (sample_globals 0))
  = [ true; false; false; false; false; false; false; false; false; false;
      true; false; false; false; false; false; false; false; false; false ].
Proof.
  apply (@metadata_in_cycles_0_and_10 model_platform model_one_line);
    reflexivity.
Defined.

(** C7, as the code has it.  In a cycle that renders metadata the frame,
    built from an empty packet, has exactly 3 + 4 + 4 = 11 lines, each
    newline-terminated: the three [SET] lines, the four [STYLE] lines and
    the four [DATA] lines, in this order. *)
Theorem metadata_frame_has_11_lines {P : Platform} (one_line : PrintOneLine P)
    (t h : float) (g : Globals) :
  (transmitCount g mod 10 = 0)%Z ->
  exists ls : list string,
    lines_of (snd (DirectWrite.loop t h g)) = Some ls
    /\ snd (DirectWrite.loop t h g) = render_lines ls
    /\ length ls = (3 + 4 + 4)%nat
    /\ firstn 3 ls = set_lines
    /\ firstn 4 (skipn 3 ls) = direct_style_lines
    /\ skipn 7 ls = data_lines t h (fst (DirectWrite.loop t h g)).
Proof.
  intros H. exists (direct_lines t h g).
  split; [apply (direct_loop_lines one_line)|].
  split; [apply direct_loop_payload|].
  rewrite (direct_lines_metadata t h g H). repeat split.
Qed.

Lemma metadata_frame_has_11_lines_at_start :
  exists ls : list string,
    lines_of
      (snd (@DirectWrite.loop model_platform (Val 30) (Val 40) (sample_globals 0)))
    = Some ls
    /\ snd (@DirectWrite.loop model_platform (Val 30) (Val 40) (sample_globals 0))
       = render_lines ls
    /\ length ls = (3 + 4 + 4)%nat
    /\ firstn 3 ls = set_lines
    /\ firstn 4 (skipn 3 ls) = direct_style_lines
    /\ skipn 7 ls
       = @data_lines model_platform (Val 30) (Val 40)
           (fst (@DirectWrite.loop model_platform (Val 30) (Val 40) (sample_globals 0))).
Proof.
  apply (@metadata_frame_has_11_lines model_platform model_one_line).
  reflexivity.
Defined.

(** The claim of C7 fails on the first frame after start-up: it has 11
    lines, not 7. *)
Lemma metadata_frame_not_7_lines :
  exists ls : list string,
    lines_of
      (snd (@DirectWrite.loop model_platform (Val 30) (Val 40) (sample_globals 0)))
    = Some ls
    /\ length ls <> 7%nat.
Proof.
  eexists. split; [vm_compute; reflexivity|]. vm_compute. discriminate.
Qed.

(** C8, as the code has it.  The counter is incremented after the frame
    has been sent: the metadata decision of a cycle tests the counter as it
    stands before that cycle's increment. *)
Theorem metadata_test_before_increment {P : Platform} (one_line : PrintOneLine P)
    (t h : float) (g : Globals) :
  has_metadata (snd (DirectWrite.loop t h g)) = (transmitCount g mod 10 =? 0)%Z
  /\ transmitCount (fst (DirectWrite.loop t h g)) = increment (transmitCount g).
Proof.
  split; [apply (direct_has_metadata one_line)|].
  rewrite direct_loop_state. cbn [count_transmission transmitCount].
  now rewrite add_to_filters_count.
Qed.

Lemma metadata_test_before_increment_at_start :
  has_metadata
    (snd (@DirectWrite.loop model_platform (Val 30) (Val 40) (sample_globals 0)))
  = (0 mod 10 =? 0)%Z
  /\ transmitCount
       (fst (@DirectWrite.loop model_platform (Val 30) (Val 40) (sample_globals 0)))
     = increment 0.
Proof.
  exact (@metadata_test_before_increment model_platform model_one_line
           (Val 30) (Val 40) (sample_globals 0)).
Defined.

(** The claim of C8 fails on the first cycle after start-up: the frame
    carries metadata, which the counter after the increment, 1, would not
    select. *)
Lemma metadata_test_not_after_increment :
  has_metadata
    (snd (@DirectWrite.loop model_platform (Val 30) (Val 40) (sample_globals 0)))
  <> (transmitCount
        (fst (@DirectWrite.loop model_platform (Val 30) (Val 40) (sample_globals 0)))
      mod 10 =? 0)%Z.
Proof. vm_compute. discriminate. Qed.

(* ================================================================== *)
(** ** Invalid samples *)

Lemma add_to_filters_invalid {P : Platform} (t h : float) (g : Globals) :
  isnan t = true \/ isnan h = true -> add_to_filters t h g = g.
Proof.
  unfold add_to_filters. intros [H|H]; rewrite H; [reflexivity|].
  now rewrite andb_false_r.
Qed.

Lemma add_to_filters_valid {P : Platform} (t h : float) (g : Globals) :
  isnan t = false -> isnan h = false ->
  temperatureFilter (add_to_filters t h g) = Filter (temperatureFilter g) t
  /\ humidityFilter (add_to_filters t h g) = Filter (humidityFilter g) h.
Proof.
  unfold add_to_filters. intros Ht Hh. rewrite Ht, Hh. now split.
Qed.

(** The tests [is_data_line_of] on the data lines of a frame, decided:
    the line of the series itself by [is_data_line_of_data_line], the
    lines of the other series by evaluation. *)
Ltac decide_data_line_tests :=
  repeat match goal with
  | |- context [is_data_line_of ?a (data_line ?a ?v)] =>
      rewrite (is_data_line_of_data_line a v)
  | |- context [is_data_line_of ?a (data_line ?b ?v)] =>
      change (is_data_line_of a (data_line b v)) with false
  end.

Lemma filtered_line_of_data_lines {P : Platform}
    (q : Quantity) (t h : float) (g : Globals) :
  filter (is_data_line_of (filtered_series q)) (data_lines t h g)
  = [data_line (filtered_series q) (Current (filter_of q g))].
Proof.
  destruct q; unfold data_lines;
    cbn [filter filtered_series filter_of];
    decide_data_line_tests; reflexivity.
Qed.

Lemma filtered_line_of_direct_lines {P : Platform}
    (q : Quantity) (t h : float) (g : Globals) :
  filter (is_data_line_of (filtered_series q)) (direct_lines t h g)
  = [data_line (filtered_series q)
       (Current (filter_of q (add_to_filters t h g)))].
Proof.
  unfold direct_lines. rewrite filter_app, filtered_line_of_data_lines.
  destruct (transmitCount g mod 10 =? 0)%Z; destruct q; reflexivity.
Qed.

(** C9.  In a cycle whose temperature (humidity) sample is invalid, the
    temperature (humidity) filter reads after the cycle what it read
    before, and the frame's data line of the filtered series carries that
    unchanged value. *)
Theorem invalid_sample_keeps_filtered_value {P : Platform}
    (one_line : PrintOneLine P) (q : Quantity) (t h : float) (g : Globals) :
  isnan (reading_of q t h) = true ->
  Current (filter_of q (fst (DirectWrite.loop t h g))) = Current (filter_of q g)
  /\ exists ls : list string,
       lines_of (snd (DirectWrite.loop t h g)) = Some ls
       /\ filter (is_data_line_of (filtered_series q)) ls
          = [data_line (filtered_series q) (Current (filter_of q g))].
Proof.
  intros H.
  assert (Hg : add_to_filters t h g = g).
  { apply add_to_filters_invalid. destruct q; [left | right]; exact H. }
  split.
  - rewrite direct_loop_state, Hg. now destruct q.
  - exists (direct_lines t h g). split; [apply (direct_loop_lines one_line)|].
    now rewrite filtered_line_of_direct_lines, Hg.
Qed.

Lemma invalid_sample_keeps_filtered_value_humidity :
  @Current model_platform
    (filter_of Humidity
       (fst (@DirectWrite.loop model_platform (Val 30) NaN (sample_globals 3))))
  = Val 50
  /\ exists ls : list string,
       lines_of
         (snd (@DirectWrite.loop model_platform (Val 30) NaN (sample_globals 3)))
       = Some ls
       /\ filter (is_data_line_of "Filtered Humidity") ls
          = ["{TIMEPLOT|DATA|Filtered Humidity|T|50.00}"].
Proof.
  exact (@invalid_sample_keeps_filtered_value model_platform model_one_line
           Humidity (Val 30) NaN (sample_globals 3) eq_refl).
Defined.

(** C5, as the code has it.  The two filters are updated together: both
    readings are applied to their filters when both are valid, and both
    filters are left untouched when either reading is invalid.  This holds
    for both variants of the sketch. *)
Theorem filters_updated_together {P : Platform} (t h : float) (g : Globals) :
  forall g' : Globals,
    g' = fst (DirectWrite.loop t h g) \/ g' = fst (TimePlotApi.loop t h g) ->
    (isnan t = false /\ isnan h = false ->
       temperatureFilter g' = Filter (temperatureFilter g) t
       /\ humidityFilter g' = Filter (humidityFilter g) h)
    /\ (isnan t = true \/ isnan h = true ->
          temperatureFilter g' = temperatureFilter g
          /\ humidityFilter g' = humidityFilter g).
Proof.
  intros g' Hg'.
  assert (E : g' = count_transmission (add_to_filters t h g))
    by (destruct Hg' as [-> | ->]; reflexivity).
  subst g'. cbn [count_transmission temperatureFilter humidityFilter].
  split.
  - intros [Ht Hh]. now apply add_to_filters_valid.
  - intros H. now rewrite (add_to_filters_invalid t h g H).
Qed.

Lemma filters_updated_together_humidity_invalid :
  temperatureFilter
    (fst (@DirectWrite.loop model_platform (Val 30) NaN (sample_globals 3)))
  = temperatureFilter (sample_globals 3)
  /\ humidityFilter
       (fst (@DirectWrite.loop model_platform (Val 30) NaN (sample_globals 3)))
     = humidityFilter (sample_globals 3).
Proof.
  apply (@filters_updated_together model_platform (Val 30) NaN (sample_globals 3)
           _ (or_introl eq_refl)).
  right. reflexivity.
Defined.

(** The claim of C5 fails when the temperature is valid and the humidity
    is not: the temperature is valid, yet it is not applied to its
    filter. *)
Lemma valid_temperature_not_applied :
  @isnan model_platform (Val 30) = false
  /\ temperatureFilter
       (fst (@DirectWrite.loop model_platform (Val 30) NaN (sample_globals 3)))
     <> @Filter model_platform (temperatureFilter (sample_globals 3)) (Val 30).
Proof.
  split; [reflexivity|]. vm_compute. discriminate.
Qed.

(* ================================================================== *)
(** ** Style lines *)

Lemma String_inj (a b : ascii) (s t : string) :
  String a s = String b t -> a = b /\ s = t.
Proof. intros H. now injection H. Qed.

(** An equation between a literal and a string with unknown parts, taken
    apart character by character. *)
Ltac peel H :=
  cbn [append] in H;
  lazymatch type of H with
  | EmptyString = String _ _ => discriminate H
  | String _ _ = EmptyString => discriminate H
  | String _ _ = String _ _ =>
      let E := fresh "E" in
      apply String_inj in H; destruct H as [E H];
      first [ discriminate E | peel H ]
  | _ = ?s ++ _ => destruct s eqn:?; peel H
  | _ => idtac
  end.

Lemma style_literal_off_format (series : string) (c l : ascii) (w : positive) (m : ascii) :
  "{TIMEPLOT|STYLE|Raw Temperature:bs#}" ++ NL <> format_style_line series c l w m.
Proof.
  unfold format_style_line, NL. intros H. peel H;
    exfalso; eapply decimal_nonempty; eassumption.
Qed.

Lemma style_line_not_data {P : Platform} (series : string) (v : float) :
  prefix "{TIMEPLOT|STYLE|" (data_line series v) = false.
Proof. reflexivity. Qed.

(** C4, as the code has it.  Every style line the sketch writes has the
    form [{TIMEPLOT|STYLE|<seriesName>:<colorCode><markerCode><lineCode><width>}]
    for one of the four declared series, with the colour codes b=blue and
    r=red, the marker codes s=square, o=circle and n=none, the line codes
    #=no line and _=solid, and the width written as a positive integer
    unless it is 1, in which case it is left out. *)
Theorem style_lines_render_declared_series {P : Platform}
    (one_line : PrintOneLine P) (t h : float) (g : Globals)
    (ls : list string) (l : string) :
  lines_of (snd (DirectWrite.loop t h g)) = Some ls ->
  In l ls ->
  prefix "{TIMEPLOT|STYLE|" l = true ->
  exists s : Series, In s declared_series /\ literal_style_line s = Some l.
Proof.
  intros Hls Hin Hstyle.
  rewrite (direct_loop_lines one_line) in Hls.
  injection Hls as <-. unfold direct_lines in Hin.
  apply in_app_or in Hin as [Hin | Hin].
  - destruct (transmitCount g mod 10 =? 0)%Z; [|contradiction].
    cbn in Hin.
    destruct Hin as [<- | [<- | [<- | Hin]]]; try discriminate Hstyle.
    destruct Hin as [<- | [<- | [<- | [<- | []]]]].
    + eexists. split; [left; reflexivity | reflexivity].
    + eexists. split; [right; left; reflexivity | reflexivity].
    + eexists. split; [right; right; left; reflexivity | reflexivity].
    + eexists. split; [right; right; right; left; reflexivity | reflexivity].
  - unfold data_lines in Hin.
    destruct Hin as [<- | [<- | [<- | [<- | []]]]];
      rewrite style_line_not_data in Hstyle; discriminate.
Qed.

Lemma style_lines_render_declared_series_at_start :
  exists s : Series,
    In s declared_series
    /\ literal_style_line s = Some "{TIMEPLOT|STYLE|Filtered Humidity:rn_2}".
Proof.
  apply (@style_lines_render_declared_series model_platform model_one_line
           (Val 30) (Val 40) (sample_globals 0)
           [ "{TIMEPLOT|SET|title=Remote Temperature & Humidity}";
             "{TIMEPLOT|SET|x-label=Time}";
             "{TIMEPLOT|SET|y-label=Degrees C / % Relative Humidity}";
             "{TIMEPLOT|STYLE|Raw Temperature:bs#}";
             "{TIMEPLOT|STYLE|Raw Humidity:ro#}";
             "{TIMEPLOT|STYLE|Filtered Temperature:bn_2}";
             "{TIMEPLOT|STYLE|Filtered Humidity:rn_2}";
             "{TIMEPLOT|DATA|Raw Temperature|T|30.00}";
             "{TIMEPLOT|DATA|Raw Humidity|T|40.00}";
             "{TIMEPLOT|DATA|Filtered Temperature|T|25.50}";
             "{TIMEPLOT|DATA|Filtered Humidity|T|49.00}" ]).
  - vm_compute. reflexivity.
  - simpl. tauto.
  - reflexivity.
Defined.

(** The claim of C4 fails on the first frame after start-up: its style
    line for the raw temperature has no width and is not of the form
    [<colorCode><lineCode><width><markerCode>], whatever the codes. *)
Lemma style_line_without_width :
  exists (ls : list string) (l : string),
    lines_of
      (snd (@DirectWrite.loop model_platform (Val 30) (Val 40) (sample_globals 0)))
    = Some ls
    /\ In l ls
    /\ prefix "{TIMEPLOT|STYLE|" l = true
    /\ forall (series : string) (c lc : ascii) (w : positive) (m : ascii),
         l ++ NL <> format_style_line series c lc w m.
Proof.
  eexists. exists "{TIMEPLOT|STYLE|Raw Temperature:bs#}".
  split; [vm_compute; reflexivity|].
  split; [simpl; tauto|].
  split; [reflexivity|].
  apply style_literal_off_format.
Qed.

(* ================================================================== *)
(** ** Constructing the filters *)

Lemma in_range_iff (w : Q) :
  SmoothingFilter.in_range w = true <-> 0 < w /\ w <= 1.
Proof.
  unfold SmoothingFilter.in_range.
  rewrite andb_true_iff, negb_true_iff, Qle_bool_iff.
  split; intros [H0 H1]; (split; [|exact H1]).
  - apply Qnot_le_lt. intros H. apply Qle_bool_iff in H. congruence.
  - destruct (Qle_bool w 0) eqn:E; [|reflexivity].
    apply Qle_bool_iff in E. exfalso. exact (Qlt_not_le _ _ H0 E).
Qed.

(** C6.  Constructing a filter succeeds for every weight [w] with
    [0 < w <= 1], giving the filter with that weight whose value is the
    seed, and is rejected for every other weight, in particular for the
    weight 0 and for every weight above 1. *)
Theorem new_rejects_weights_outside_range (w seed : Q) :
  (0 < w /\ w <= 1 ->
     exists f : SmoothingFilter.t,
       SmoothingFilter.new w seed = Some f
       /\ SmoothingFilter.weight f = w
       /\ SmoothingFilter.value f = seed)
  /\ (~ (0 < w /\ w <= 1) -> SmoothingFilter.new w seed = None)
  /\ SmoothingFilter.new 0 seed = None
  /\ (1 < w -> SmoothingFilter.new w seed = None).
Proof.
  assert (Hout : ~ (0 < w /\ w <= 1) -> SmoothingFilter.new w seed = None).
  { intros H. unfold SmoothingFilter.new.
    destruct (SmoothingFilter.in_range w) eqn:E; [|reflexivity].
    apply in_range_iff in E. contradiction. }
  split; [|split; [exact Hout | split]].
  - intros H. apply in_range_iff in H.
    unfold SmoothingFilter.new. rewrite H.
    eexists. repeat split.
  - reflexivity.
  - intros H. apply Hout. intros [_ H1]. exact (Qlt_not_le _ _ H H1).
Qed.

(* ================================================================== *)
(** ** The counter over many cycles *)

Lemma increment_range (c : Z) : (0 <= increment c < ULONG_MODULUS)%Z.
Proof. unfold increment. apply Z.mod_pos_bound. reflexivity. Qed.

Lemma loop_count {P : Platform} (t h : float) (g : Globals) :
  transmitCount (fst (DirectWrite.loop t h g)) = increment (transmitCount g).
Proof.
  rewrite direct_loop_state. cbn [count_transmission transmitCount].
  now rewrite add_to_filters_count.
Qed.

Lemma frames_cons {P : Platform} (t h : float)
    (rest : list (float * float)) (g : Globals) :
  frames ((t, h) :: rest) g
  = snd (DirectWrite.loop t h g) :: frames rest (fst (DirectWrite.loop t h g)).
Proof.
  cbn [frames]. now rewrite (surjective_pairing (DirectWrite.loop t h g)).
Qed.

Lemma run_cycles_count {P : Platform}
    (readings : list (float * float)) (g : Globals) :
  (0 <= transmitCount g < ULONG_MODULUS)%Z ->
  transmitCount (run_cycles readings g)
  = ((transmitCount g + Z.of_nat (length readings)) mod ULONG_MODULUS)%Z.
Proof.
  revert g. induction readings as [|[t h] rest IH]; intros g Hc.
  - cbn [run_cycles length Z.of_nat]. rewrite Z.add_0_r.
    now rewrite Z.mod_small by exact Hc.
  - cbn [run_cycles]. rewrite IH by (rewrite loop_count; apply increment_range).
    rewrite loop_count. unfold increment.
    rewrite Zplus_mod_idemp_l. f_equal.
    change (length ((t, h) :: rest)) with (S (length rest)). lia.
Qed.

(** The counter after [n] cycles is [(c + n) mod 2^32], whatever the sensor
    read: it stays a 32-bit value and wraps to 0 after 4294967295. *)
Theorem counter_after_cycles {P : Platform}
    (readings : list (float * float)) (g : Globals) :
  (0 <= transmitCount g < ULONG_MODULUS)%Z ->
  transmitCount (run_cycles readings g)
  = ((transmitCount g + Z.of_nat (length readings)) mod ULONG_MODULUS)%Z
  /\ (0 <= transmitCount (run_cycles readings g) < ULONG_MODULUS)%Z.
Proof.
  intros Hc. rewrite (run_cycles_count readings g Hc). split; [reflexivity|].
  apply Z.mod_pos_bound. reflexivity.
Qed.

Lemma counter_after_cycles_wraps :
  transmitCount
    (@run_cycles model_platform (repeat (Val 30, NaN) 3) (sample_globals 4294967294))
  = 1%Z.
Proof.
  assert (H : (0 <= transmitCount (sample_globals 4294967294) < ULONG_MODULUS)%Z)
    by (split; [discriminate | reflexivity]).
  exact (proj1 (@counter_after_cycles model_platform (repeat (Val 30, NaN) 3)
                  (sample_globals 4294967294) H)).
Defined.

(* ================================================================== *)
(** ** The cadence of the metadata *)

Lemma cadence_without_wrap (n : nat) (c : Z) :
  (0 <= c)%Z -> (c + Z.of_nat n <= ULONG_MODULUS)%Z ->
  cadence n c
  = map (fun k : nat => ((c + Z.of_nat k) mod 10 =? 0)%Z) (seq 0 n).
Proof.
  revert c. induction n as [|n IH]; intros c H0 Hn; [reflexivity|].
  cbn [cadence seq map]. rewrite Z.add_0_r. f_equal.
  destruct n as [|n]; [reflexivity|].
  assert (E : increment c = (c + 1)%Z).
  { unfold increment. apply Z.mod_small. lia. }
  rewrite E, IH by lia.
  rewrite <- seq_shift, map_map.
  apply map_ext. intros k. do 2 f_equal. lia.
Qed.

Lemma cadence_hits_within_10 (c : Z) :
  (0 <= c < ULONG_MODULUS)%Z -> existsb (fun b : bool => b) (cadence 10 c) = true.
Proof.
  intros Hc.
  assert (Hcase : (c + 10 <= ULONG_MODULUS)%Z
                  \/ exists j : Z, (1 <= j <= 9)%Z /\ c = (ULONG_MODULUS - j)%Z).
  { destruct (Z_le_gt_dec (c + 10) ULONG_MODULUS) as [H|H]; [now left|].
    right. exists (ULONG_MODULUS - c)%Z. lia. }
  destruct Hcase as [H | [j [Hj ->]]].
  - rewrite cadence_without_wrap by lia.
    apply existsb_exists.
    exists ((c + Z.of_nat (Z.to_nat ((10 - c mod 10) mod 10))) mod 10 =? 0)%Z.
    pose proof (Z.mod_pos_bound c 10 eq_refl) as Hr.
    pose proof (Z.mod_pos_bound (10 - c mod 10) 10 eq_refl) as Hk.
    split.
    + apply in_map_iff. exists (Z.to_nat ((10 - c mod 10) mod 10)).
      split; [reflexivity|]. apply in_seq. lia.
    + apply Z.eqb_eq. rewrite Z2Nat.id by lia.
      rewrite Zplus_mod_idemp_r.
      replace (c + (10 - c mod 10))%Z with (c - c mod 10 + 1 * 10)%Z by ring.
      rewrite Z_mod_plus_full.
      rewrite Zminus_mod_idemp_r, Z.sub_diag. reflexivity.
  - assert (Hj' : (j = 1 \/ j = 2 \/ j = 3 \/ j = 4 \/ j = 5 \/ j = 6
                   \/ j = 7 \/ j = 8 \/ j = 9)%Z) by lia.
    repeat (destruct Hj' as [-> | Hj']; [vm_compute; reflexivity|]).
    subst j. vm_compute. reflexivity.
Qed.

Lemma existsb_map {A B : Type} (f : A -> B) (p : B -> bool) (l : list A) :
  existsb p (map f l) = existsb (fun x => p (f x)) l.
Proof.
  induction l as [|x l IH]; [reflexivity|]. cbn. now rewrite IH.
Qed.

(** As long as the counter does not wrap, the frame of the cycle [k]
    cycles from now carries metadata exactly when [c + k] is a multiple of
    10, [c] being the counter now. *)
Theorem metadata_every_tenth_count {P : Platform} (one_line : PrintOneLine P)
    (readings : list (float * float)) (g : Globals) :
  (0 <= transmitCount g)%Z ->
  (transmitCount g + Z.of_nat (length readings) <= ULONG_MODULUS)%Z ->
  map has_metadata (frames readings g)
  = map (fun k : nat => ((transmitCount g + Z.of_nat k) mod 10 =? 0)%Z)
        (seq 0 (length readings)).
Proof.
  intros H0 Hn. rewrite (frames_cadence one_line).
  now apply cadence_without_wrap.
Qed.

Lemma metadata_every_tenth_count_from_7 :
  map has_metadata
    (@frames model_platform (repeat (Val 30, Val 40) 5) (sample_globals 7))
  = [false; false; false; true; false].
Proof.
  apply (@metadata_every_tenth_count model_platform model_one_line
           (repeat (Val 30, Val 40) 5) (sample_globals 7)).
  - discriminate.
  - discriminate.
Defined.

(** A listener never waits more than ten cycles for the metadata: of any
    ten consecutive cycles at least one sends a frame with metadata, also
    when the counter wraps in between. *)
Theorem metadata_within_10_cycles {P : Platform} (one_line : PrintOneLine P)
    (readings : list (float * float)) (g : Globals) :
  length readings = 10%nat ->
  (0 <= transmitCount g < ULONG_MODULUS)%Z ->
  existsb has_metadata (frames readings g) = true.
Proof.
  intros Hn Hc.
  rewrite <- (existsb_map has_metadata (fun b : bool => b)).
  rewrite (frames_cadence one_line), Hn.
  now apply cadence_hits_within_10.
Qed.

Lemma metadata_within_10_cycles_across_wrap :
  existsb has_metadata
    (@frames model_platform (repeat (NaN, NaN) 10) (sample_globals 4294967291))
  = true.
Proof.
  apply (@metadata_within_10_cycles model_platform model_one_line).
  - reflexivity.
  - split; [discriminate | reflexivity].
Defined.

(** When the counter wraps, the cadence is cut short: the counter
    4294967290 selects a metadata frame, and so does the counter 0 that
    follows 4294967295, six cycles later instead of ten. *)
Theorem metadata_six_cycles_apart_at_wrap {P : Platform}
    (one_line : PrintOneLine P)
    (readings : list (float * float)) (g : Globals) :
  length readings = 7%nat ->
  transmitCount g = (ULONG_MODULUS - 6)%Z ->
  map has_metadata (frames readings g)
  = [true; false; false; false; false; false; true]
  /\ transmitCount (run_cycles readings g) = 1%Z.
Proof.
  intros Hn Hc. split.
  - rewrite (frames_cadence one_line), Hn, Hc. reflexivity.
  - assert (R : (0 <= transmitCount g < ULONG_MODULUS)%Z)
      by (rewrite Hc; split; [discriminate | reflexivity]).
    rewrite (run_cycles_count readings g R), Hn, Hc. reflexivity.
Qed.

Lemma metadata_six_cycles_apart_at_wrap_sample_run :
  map has_metadata
    (@frames model_platform (repeat (Val 30, Val 40) 7) (sample_globals 4294967290))
  = [true; false; false; false; false; false; true]
  /\ transmitCount
       (@run_cycles model_platform (repeat (Val 30, Val 40) 7)
          (sample_globals 4294967290))
     = 1%Z.
Proof.
  apply (@metadata_six_cycles_apart_at_wrap model_platform model_one_line);
    reflexivity.
Defined.

(* ================================================================== *)
(** ** What every frame carries *)

Lemma data_prefix_of_data_lines {P : Platform} (t h : float) (g : Globals) :
  filter (prefix "{TIMEPLOT|DATA|") (data_lines t h g) = data_lines t h g.
Proof. reflexivity. Qed.

Lemma direct_lines_without_metadata {P : Platform} (t h : float) (g : Globals) :
  (transmitCount g mod 10 <> 0)%Z ->
  direct_lines t h g = data_lines t h (add_to_filters t h g).
Proof.
  intros H. unfold direct_lines.
  apply Z.eqb_neq in H. now rewrite H.
Qed.

(** In a cycle whose counter is not a multiple of 10 the frame consists of
    the four data lines and nothing else. *)
Theorem frame_without_metadata {P : Platform} (one_line : PrintOneLine P)
    (t h : float) (g : Globals) :
  (transmitCount g mod 10 <> 0)%Z ->
  lines_of (snd (DirectWrite.loop t h g))
  = Some (data_lines t h (fst (DirectWrite.loop t h g)))
  /\ has_metadata (snd (DirectWrite.loop t h g)) = false.
Proof.
  intros H. split.
  - rewrite (direct_loop_lines one_line), (direct_lines_without_metadata t h g H).
    reflexivity.
  - rewrite (direct_has_metadata one_line). now apply Z.eqb_neq.
Qed.

Lemma frame_without_metadata_count_3 :
  lines_of
    (snd (@DirectWrite.loop model_platform (Val 30) NaN (sample_globals 3)))
  = Some [ "{TIMEPLOT|DATA|Raw Temperature|T|30.00}";
           "{TIMEPLOT|DATA|Raw Humidity|T|nan}";
           "{TIMEPLOT|DATA|Filtered Temperature|T|25.00}";
           "{TIMEPLOT|DATA|Filtered Humidity|T|50.00}" ]
  /\ has_metadata
       (snd (@DirectWrite.loop model_platform (Val 30) NaN (sample_globals 3)))
     = false.
Proof.
  apply (@frame_without_metadata model_platform model_one_line
           (Val 30) NaN (sample_globals 3)).
  discriminate.
Defined.

(** Every frame, with or without metadata, is made of complete lines, 4
    or 11 of them, and its [DATA] lines are exactly its last four lines:
    the two readings as they were read, valid or not, then the current
    values of the two filters after the cycle's filter step. *)
Theorem frame_ends_with_four_data_lines {P : Platform}
    (one_line : PrintOneLine P) (t h : float) (g : Globals) :
  exists ls : list string,
    lines_of (snd (DirectWrite.loop t h g)) = Some ls
    /\ (length ls = 4%nat \/ length ls = 11%nat)
    /\ filter (prefix "{TIMEPLOT|DATA|") ls
       = data_lines t h (fst (DirectWrite.loop t h g))
    /\ skipn (length ls - 4) ls
       = data_lines t h (fst (DirectWrite.loop t h g)).
Proof.
  exists (direct_lines t h g).
  split; [apply (direct_loop_lines one_line)|].
  unfold direct_lines.
  destruct (transmitCount g mod 10 =? 0)%Z.
  - split; [right; reflexivity|]. split; reflexivity.
  - split; [left; reflexivity|]. split; reflexivity.
Qed.

Lemma frame_ends_with_four_data_lines_at_start :
  exists ls : list string,
    lines_of
      (snd (@DirectWrite.loop model_platform NaN (Val 40) (sample_globals 0)))
    = Some ls
    /\ (length ls = 4%nat \/ length ls = 11%nat)
    /\ filter (prefix "{TIMEPLOT|DATA|") ls
       = @data_lines model_platform NaN (Val 40)
           (fst (@DirectWrite.loop model_platform NaN (Val 40) (sample_globals 0)))
    /\ skipn (length ls - 4) ls
       = @data_lines model_platform NaN (Val 40)
           (fst (@DirectWrite.loop model_platform NaN (Val 40) (sample_globals 0))).
Proof.
  exact (@frame_ends_with_four_data_lines model_platform model_one_line
           NaN (Val 40) (sample_globals 0)).
Defined.

(** When both readings are valid, the frame of the same cycle already
    carries the updated filter values: its data line of a filtered series
    prints the filter after the reading has been applied. *)
Theorem valid_samples_reach_the_frame {P : Platform}
    (one_line : PrintOneLine P) (q : Quantity) (t h : float) (g : Globals) :
  isnan t = false ->
  isnan h = false ->
  exists ls : list string,
    lines_of (snd (DirectWrite.loop t h g)) = Some ls
    /\ filter (is_data_line_of (filtered_series q)) ls
       = [data_line (filtered_series q)
            (Current (Filter (filter_of q g) (reading_of q t h)))].
Proof.
  intros Ht Hh. exists (direct_lines t h g).
  split; [apply (direct_loop_lines one_line)|].
  rewrite filtered_line_of_direct_lines.
  destruct (add_to_filters_valid t h g Ht Hh) as [Et Eh].
  destruct q; cbn [filter_of reading_of]; now rewrite ?Et, ?Eh.
Qed.

Lemma valid_samples_reach_the_frame_temperature :
  exists ls : list string,
    lines_of
      (snd (@DirectWrite.loop model_platform (Val 30) (Val 40) (sample_globals 3)))
    = Some ls
    /\ filter (is_data_line_of "Filtered Temperature") ls
       = ["{TIMEPLOT|DATA|Filtered Temperature|T|25.50}"].
Proof.
  exact (@valid_samples_reach_the_frame model_platform model_one_line
           Temperature (Val 30) (Val 40) (sample_globals 3) eq_refl eq_refl).
Defined.

(* ================================================================== *)
(** ** A sensor that keeps failing *)

Lemma loop_invalid_cycle {P : Platform} (t h : float) (g : Globals) :
  invalid_cycle (t, h) = true ->
  temperatureFilter (fst (DirectWrite.loop t h g)) = temperatureFilter g
  /\ humidityFilter (fst (DirectWrite.loop t h g)) = humidityFilter g.
Proof.
  intros H. apply orb_true_iff in H. cbn [fst snd] in H.
  rewrite direct_loop_state.
  cbn [count_transmission temperatureFilter humidityFilter].
  now rewrite (add_to_filters_invalid t h g H).
Qed.

Lemma data_lines_same_filters {P : Platform} (t h : float) (g1 g2 : Globals) :
  temperatureFilter g1 = temperatureFilter g2 ->
  humidityFilter g1 = humidityFilter g2 ->
  data_lines t h g1 = data_lines t h g2.
Proof. unfold data_lines. now intros -> ->. Qed.

Lemma add_to_filters_same_filters {P : Platform} (t h : float) (g1 g2 : Globals) :
  temperatureFilter g1 = temperatureFilter g2 ->
  humidityFilter g1 = humidityFilter g2 ->
  temperatureFilter (add_to_filters t h g1) = temperatureFilter (add_to_filters t h g2)
  /\ humidityFilter (add_to_filters t h g1) = humidityFilter (add_to_filters t h g2).
Proof.
  intros Et Eh. unfold add_to_filters.
  destruct (negb (isnan t) && negb (isnan h));
    cbn [temperatureFilter humidityFilter]; rewrite ?Et, ?Eh; now split.
Qed.

(** While the sensor keeps failing, the filters go stale: over any run of
    cycles that each have an invalid reading, both filters end as they
    began, and every frame of the run repeats the same filtered values. *)
Theorem failing_sensor_freezes_filters {P : Platform}
    (one_line : PrintOneLine P) (q : Quantity)
    (readings : list (float * float)) (g : Globals) :
  forallb invalid_cycle readings = true ->
  filter_of q (run_cycles readings g) = filter_of q g
  /\ Forall
       (fun payload : string =>
          exists ls : list string,
            lines_of payload = Some ls
            /\ filter (is_data_line_of (filtered_series q)) ls
               = [data_line (filtered_series q) (Current (filter_of q g))])
       (frames readings g).
Proof.
  revert g. induction readings as [|[t h] rest IH]; intros g H.
  - split; [reflexivity | constructor].
  - cbn [forallb] in H. apply andb_true_iff in H as [Hth Hrest].
    destruct (loop_invalid_cycle t h g Hth) as [Et Eh].
    assert (Eq : filter_of q (fst (DirectWrite.loop t h g)) = filter_of q g)
      by (destruct q; assumption).
    destruct (IH (fst (DirectWrite.loop t h g)) Hrest) as [IHf IHl].
    rewrite Eq in IHf, IHl.
    cbn [run_cycles]. rewrite frames_cons. split; [exact IHf|].
    constructor; [|exact IHl].
    exists (direct_lines t h g).
    split; [apply (direct_loop_lines one_line)|].
    rewrite filtered_line_of_direct_lines.
    apply orb_true_iff in Hth. cbn [fst snd] in Hth.
    now rewrite (add_to_filters_invalid t h g Hth).
Qed.

Lemma failing_sensor_freezes_filters_three_cycles :
  filter_of Temperature
    (@run_cycles model_platform [(NaN, NaN); (Val 31, NaN); (NaN, Val 40)]
       (sample_globals 9))
  = filter_of Temperature (sample_globals 9)
  /\ Forall
       (fun payload : string =>
          exists ls : list string,
            lines_of payload = Some ls
            /\ filter (is_data_line_of "Filtered Temperature") ls
               = ["{TIMEPLOT|DATA|Filtered Temperature|T|25.00}"])
       (@frames model_platform [(NaN, NaN); (Val 31, NaN); (NaN, Val 40)]
          (sample_globals 9)).
Proof.
  exact (@failing_sensor_freezes_filters model_platform model_one_line
           Temperature [(NaN, NaN); (Val 31, NaN); (NaN, Val 40)]
           (sample_globals 9) eq_refl).
Defined.

(* ================================================================== *)
(** ** What the metadata costs *)

Lemma render_lines_app (a b : list string) :
  render_lines (a ++ b) = render_lines a ++ render_lines b.
Proof.
  induction a as [|l a IH]; [reflexivity|].
  cbn [List.app render_lines]. rewrite IH. now rewrite !append_assoc.
Qed.

Lemma length_append (a b : string) :
  String.length (a ++ b) = (String.length a + String.length b)%nat.
Proof.
  induction a as [|x a IH]; [reflexivity|]. cbn. now rewrite IH.
Qed.

(** The metadata is a constant block in front of the data: for the same
    readings and filters, the frame of a cycle whose counter is a multiple
    of 10 is the frame of any other cycle with the same 288 bytes of seven
    lines before it. *)
Theorem metadata_is_a_constant_prefix {P : Platform}
    (t h : float) (g1 g2 : Globals) :
  temperatureFilter g1 = temperatureFilter g2 ->
  humidityFilter g1 = humidityFilter g2 ->
  (transmitCount g1 mod 10 = 0)%Z ->
  (transmitCount g2 mod 10 <> 0)%Z ->
  snd (DirectWrite.loop t h g1) = metadata_block ++ snd (DirectWrite.loop t h g2)
  /\ String.length (snd (DirectWrite.loop t h g1))
     = (288 + String.length (snd (DirectWrite.loop t h g2)))%nat.
Proof.
  intros Et Eh H1 H2.
  assert (E : snd (DirectWrite.loop t h g1)
              = metadata_block ++ snd (DirectWrite.loop t h g2)).
  { rewrite !direct_loop_payload.
    rewrite (direct_lines_metadata t h g1 H1),
      (direct_lines_without_metadata t h g2 H2).
    destruct (add_to_filters_same_filters t h g1 g2 Et Eh) as [Ft Fh].
    rewrite (data_lines_same_filters t h _ _ Ft Fh).
    rewrite app_assoc, render_lines_app. reflexivity. }
  split; [exact E|].
  rewrite E, length_append. reflexivity.
Qed.

Lemma metadata_is_a_constant_prefix_counts_0_and_3 :
  snd (@DirectWrite.loop model_platform (Val 30) (Val 40) (sample_globals 0))
  = metadata_block
      ++ snd (@DirectWrite.loop model_platform (Val 30) (Val 40) (sample_globals 3))
  /\ String.length
       (snd (@DirectWrite.loop model_platform (Val 30) (Val 40) (sample_globals 0)))
     = (288 + String.length
                (snd (@DirectWrite.loop model_platform (Val 30) (Val 40)
                        (sample_globals 3))))%nat.
Proof.
  apply (@metadata_is_a_constant_prefix model_platform (Val 30) (Val 40)
           (sample_globals 0) (sample_globals 3)).
  - reflexivity.
  - reflexivity.
  - reflexivity.
  - discriminate.
Defined.

(* ================================================================== *)
(** ** What the filters are fed over a run *)

Lemma loop_valid_cycle {P : Platform} (t h : float) (g : Globals) :
  invalid_cycle (t, h) = false ->
  temperatureFilter (fst (DirectWrite.loop t h g)) = Filter (temperatureFilter g) t
  /\ humidityFilter (fst (DirectWrite.loop t h g)) = Filter (humidityFilter g) h.
Proof.
  intros H. apply orb_false_iff in H as [Ht Hh]. cbn [fst snd] in Ht, Hh.
  rewrite direct_loop_state.
  cbn [count_transmission temperatureFilter humidityFilter].
  now apply add_to_filters_valid.
Qed.

(** Over any run of cycles each filter is fed exactly the readings of its
    quantity from the cycles in which both readings were valid, in order;
    the cycles with an invalid reading leave no trace in the filters. *)
Theorem filters_fed_the_valid_cycles {P : Platform}
    (readings : list (float * float)) (g : Globals) :
  temperatureFilter (run_cycles readings g)
  = fold_left Filter (map fst (valid_cycles readings)) (temperatureFilter g)
  /\ humidityFilter (run_cycles readings g)
     = fold_left Filter (map snd (valid_cycles readings)) (humidityFilter g).
Proof.
  revert g. induction readings as [|[t h] rest IH]; intros g.
  - split; reflexivity.
  - cbn [run_cycles]. destruct (IH (fst (DirectWrite.loop t h g))) as [It Ih].
    rewrite It, Ih. unfold valid_cycles. cbn [filter].
    destruct (invalid_cycle (t, h)) eqn:Hv; cbn [negb map fold_left fst snd].
    + destruct (loop_invalid_cycle t h g Hv) as [-> ->]. now split.
    + destruct (loop_valid_cycle t h g Hv) as [-> ->]. now split.
Qed.

(** The same on the model platform: two valid cycles around a failed one. *)
Example filters_fed_the_valid_cycles_sample_run :
  SmoothingFilter.value
    (temperatureFilter
       (@run_cycles model_platform [(Val 30, Val 40); (Val 99, NaN); (Val 20, Val 60)]
          (sample_globals 0)))
  == closed_form (1 # 10) 25 [30; 20].
Proof. reflexivity. Qed.

(** Both variants of the sketch drive the filters and the counter alike:
    after any run of cycles on the same readings they hold the same
    globals. *)
Theorem variants_share_the_globals {P : Platform}
    (readings : list (float * float)) (g : Globals) :
  run_cycles_timeplot readings g = run_cycles readings g.
Proof.
  revert g. induction readings as [|[t h] rest IH]; intros g; [reflexivity|].
  cbn [run_cycles_timeplot run_cycles]. now rewrite IH.
Qed.
